(** * A shallow embedding of the cross-database scans and the execution-plan
    analysis of [SQLMonitor] (src/src/db_monitor.py).

    The database server, the pooled engine and the Python libraries the
    monitor calls (the XML parser, [float], graphviz rendering) form the
    environment [env]; the monitor's own code is translated method by
    method into a state-and-exception monad [M] whose state is the
    connection, the logger output and the [results] accumulator of a scan. *)

From Stdlib Require Import String List ZArith QArith Bool Lia.
Import ListNotations.
Open Scope nat_scope.
Open Scope string_scope.
Set Warnings "-register-all".

(** ** Values, rows and tables as [pd.read_sql] returns them *)

Inductive value : Type :=
| VStr (s : string)
| VNum (q : Q)
| VNull.

Definition row := list value.
Definition table := list row.

(** [pd.concat(results) if results else pd.DataFrame()]: the rows of every
    collected frame, in order; no frame gives the empty frame. *)
Definition concat_frames (results : list table) : table :=
  List.concat results.

(** ** Exceptions raised inside the monitor *)

Inductive exn : Type :=
| DBAPIError (msg : string)      (* sqlalchemy / pyodbc errors *)
| XMLParseError (msg : string)   (* xml.etree.ElementTree.ParseError *)
| ValueError (msg : string)      (* float() on a non-numeric attribute *)
| RenderError (msg : string).    (* graphviz rendering failures *)

Definition exn_msg (e : exn) : string :=
  match e with
  | DBAPIError m | XMLParseError m | ValueError m | RenderError m => m
  end.

Inductive res (A : Type) : Type :=
| Ok (a : A)
| Err (e : exn).
Arguments Ok {A} a.
Arguments Err {A} e.

(** ** The connection and the server *)

(** A live DBAPI connection: its active database ([USE [db]]) and whether
    the link to the server is still up. *)
Record conn : Type := mkConn { cur_db : string; alive : bool }.

(** Statements sent through [conn.execute(sa.text(...))]. *)
Inductive stmt : Type :=
| Use (db : string)      (* USE [db] *)
| Sql (text : string).   (* any other batch *)

(** The server's answer to one statement: rows, an error, or an error that
    also breaks the link (connectivity loss). *)
Inductive outcome : Type :=
| OOk (t : table)
| OErr (msg : string)
| ODrop (msg : string).

(** An XML element as [xml.etree.ElementTree] builds it; [eid] stands for
    the object's identity (the address printed by [str(node)]). *)
Inductive elem : Type :=
| Elem (eid : nat) (tag : string) (attrs : list (string * string))
       (kids : list elem).

Record env : Type := mkEnv {
  e_default_db : string;                  (* database of the connection string *)
  e_connect : bool;                       (* [self.engine.connect()] succeeds *)
  e_enum : res (list string);             (* [pd.read_sql(query, self.engine)] in get_user_databases *)
  e_exec : string -> stmt -> outcome;     (* answer, given the active database *)
  e_parse_xml : string -> option elem;    (* [ET.fromstring] *)
  e_float : string -> option Q;           (* [float(s)] *)
  e_render : bool;                        (* [dot.render(...)] succeeds *)
  e_plan_path : string                    (* [self.plans_dir / f'execution_plan_{timestamp}'] *)
}.

(** ** The monad: state, exceptions that keep the state reached *)

Record St : Type := mkSt {
  st_conn : conn;
  st_log : list string;       (* messages passed to [self.logger.error] *)
  st_acc : list table         (* the [results] list of a scan *)
}.

Definition M (A : Type) : Type := St -> res A * St.

Definition ret {A} (a : A) : M A := fun s => (Ok a, s).
Definition raise {A} (e : exn) : M A := fun s => (Err e, s).
Definition bind {A B} (m : M A) (f : A -> M B) : M B :=
  fun s => match m s with
           | (Ok a, s') => f a s'
           | (Err e, s') => (Err e, s')
           end.

(** [try: m except Exception as e: h e] *)
Definition try_except {A} (m : M A) (h : exn -> M A) : M A :=
  fun s => match m s with
           | (Ok a, s') => (Ok a, s')
           | (Err e, s') => h e s'
           end.

Notation "x <- m ;; k" := (bind m (fun x => k))
  (at level 61, m at next level, right associativity).
Notation "m ;;; k" := (bind m (fun _ => k))
  (at level 61, right associativity).

Definition log_error (msg : string) : M unit :=
  fun s => (Ok tt, mkSt (st_conn s) (st_log s ++ [msg]) (st_acc s)).

Definition append_result (df : table) : M unit :=
  fun s => (Ok tt, mkSt (st_conn s) (st_log s) (st_acc s ++ [df])).

Definition get_results : M (list table) := fun s => (Ok (st_acc s), s).

Section Monitor.

Variable E : env.

(** [conn.execute(sa.text(...))] on the current connection. *)
Definition execute (x : stmt) : M table :=
  fun s =>
    let c := st_conn s in
    if negb (alive c) then (Err (DBAPIError "connection is closed"), s)
    else
      match e_exec E (cur_db c) x with
      | OOk t =>
          let c' := match x with
                    | Use d => mkConn d true
                    | Sql _ => c
                    end in
          (Ok t, mkSt c' (st_log s) (st_acc s))
      | OErr m => (Err (DBAPIError m), s)
      | ODrop m =>
          (Err (DBAPIError m), mkSt (mkConn (cur_db c) false) (st_log s) (st_acc s))
      end.

(** [with self.engine.connect() as conn:] *)
Definition connect : M unit :=
  fun s =>
    if e_connect E
    then (Ok tt, mkSt (mkConn (e_default_db E) true) (st_log s) (st_acc s))
    else (Err (DBAPIError "unable to connect"), s).

(** [get_user_databases]: the enumeration runs on a fresh engine
    connection; any failure is logged and turned into the empty list. *)
Definition get_user_databases : M (list string) :=
  match e_enum E with
  | Ok names => ret names
  | Err e =>
      log_error ("Error getting user databases: " ++ exn_msg e) ;;;
      ret []
  end.

(** The per-database loop shared by [get_duplicate_indexes],
    [get_unused_indexes] and [analyze_indexes]; [what] is the text of
    their error message and [query] their diagnostic batch. *)
Definition scan_one (what query db : string) : M unit :=
  try_except
    (execute (Use db) ;;;
     df <- execute (Sql query) ;;
     append_result df ;;;
     execute (Use "master") ;;;
     ret tt)
    (fun e =>
       log_error ("Error " ++ what ++ " for database " ++ db ++ ": " ++ exn_msg e) ;;;
       execute (Use "master") ;;;
       ret tt).

Fixpoint scan_dbs (what query : string) (dbs : list string) : M unit :=
  match dbs with
  | [] => ret tt
  | db :: rest => scan_one what query db ;;; scan_dbs what query rest
  end.

Definition scan_all (what query : string) : M table :=
  connect ;;;
  dbs <- get_user_databases ;;
  scan_dbs what query dbs ;;;
  results <- get_results ;;
  ret (concat_frames results).

End Monitor.

(** The diagnostic batches are sent verbatim; only their identity matters
    to the loop, so they are named by their first line here. *)
Definition duplicate_indexes_query : string := "WITH IndexCols AS (...)".
Definition unused_indexes_query : string := "SELECT DB_NAME() as DatabaseName, ... LEFT JOIN sys.dm_db_index_usage_stats us ...".
Definition analyze_indexes_query : string := "SELECT DB_NAME() as DatabaseName, ... FROM sys.dm_db_index_physical_stats(...) ips ...".

Definition get_duplicate_indexes (E : env) : M table :=
  scan_all E "getting duplicate indexes" duplicate_indexes_query.
Definition get_unused_indexes (E : env) : M table :=
  scan_all E "getting unused indexes" unused_indexes_query.
Definition analyze_indexes (E : env) : M table :=
  scan_all E "analyzing indexes" analyze_indexes_query.

(** Every public method starts with an empty [results] list and no log. *)
Definition init_st (E : env) : St := mkSt (mkConn (e_default_db E) false) [] [].

Definition run {A} (E : env) (m : M A) : res A * St := m (init_st E).

(** ** The plan graph builder ([add_nodes_from_xml] / [process_node]) *)

Fixpoint elem_size (e : elem) : nat :=
  match e with
  | Elem _ _ _ ks => S ((fix sizes (l : list elem) : nat :=
                          match l with
                          | [] => 0
                          | k :: l' => elem_size k + sizes l'
                          end) ks)
  end.

(** Proper descendants in document order: what [e.iter()] visits after [e]. *)
Fixpoint descendants (e : elem) : list elem :=
  match e with
  | Elem _ _ _ ks => (fix go (l : list elem) : list elem :=
                       match l with
                       | [] => []
                       | k :: l' => k :: descendants k ++ go l'
                       end) ks
  end.

Definition elem_id (e : elem) : nat := match e with Elem i _ _ _ => i end.
Definition elem_tag (e : elem) : string := match e with Elem _ t _ _ => t end.
Definition elem_attrs (e : elem) : list (string * string) :=
  match e with Elem _ _ a _ => a end.

(** [node.findall('.//RelOp')] *)
Definition findall_relop (e : elem) : list elem :=
  filter (fun d => String.eqb (elem_tag d) "RelOp") (descendants e).

(** [node.get(key, default)] *)
Definition get_attr (e : elem) (key default : string) : string :=
  match find (fun kv => String.eqb (fst kv) key) (elem_attrs e) with
  | Some (_, v) => v
  | None => default
  end.

Definition Qltb (a b : Q) : bool := negb (Qle_bool b a).

(** The colour coding of [process_node]: red ([color='red'], fill
    [#ffcccc]) above 10, orange ([#ffe6cc]) above 1, default otherwise. *)
Inductive tier : Type := High | Medium | Normal.

Definition cost_tier (c : Q) : tier :=
  if Qltb (10#1) c then High
  else if Qltb (1#1) c then Medium
  else Normal.

(** The statements recorded in the [graphviz.Digraph]: [dot.node(id, label, ...)]
    and [dot.edge(parent_id, node_id)]; [node_id] is [str(hash(str(node)))],
    one per element object. *)
Inductive dot_stmt : Type :=
| DNode (id : nat) (label : string) (t : tier)
| DEdge (parent child : nat).

Section Graph.

Variable py_float : string -> option Q.

Fixpoint process_node (fuel : nat) (node : elem) (parent_id : option nat)
  : res (list dot_stmt) :=
  match fuel with
  | O => Ok []
  | S fuel' =>
      let node_id := elem_id node in
      let op_type := get_attr node "PhysicalOp" "Unknown" in
      let est_rows := get_attr node "EstimateRows" "0" in
      let est_cost := get_attr node "EstimatedTotalSubtreeCost" "0" in
      let label := op_type ++ "\nRows: " ++ est_rows ++ "\nCost: " ++ est_cost in
      match py_float est_cost with
      | None => Err (ValueError ("could not convert string to float: " ++ est_cost))
      | Some c =>
          let here := DNode node_id label (cost_tier c)
                      :: match parent_id with
                         | Some p => [DEdge p node_id]
                         | None => []
                         end in
          let fix children (l : list elem) : res (list dot_stmt) :=
            match l with
            | [] => Ok []
            | child :: l' =>
                match process_node fuel' child (Some node_id) with
                | Err e => Err e
                | Ok a => match children l' with
                          | Err e => Err e
                          | Ok b => Ok (a ++ b)%list
                          end
                end
            end in
          match children (findall_relop node) with
          | Err e => Err e
          | Ok rest => Ok (here ++ rest)%list
          end
      end
  end.

(** Every call receives [elem_size node] as fuel: each nested call is on a
    proper descendant, whose size is strictly smaller, so the fuel never
    runs out before the Python recursion ends. *)
Definition process_root (rel_op : elem) : res (list dot_stmt) :=
  process_node (elem_size rel_op) rel_op None.

Fixpoint process_all (l : list elem) : res (list dot_stmt) :=
  match l with
  | [] => Ok []
  | r :: l' =>
      match process_root r with
      | Err e => Err e
      | Ok a => match process_all l' with
                | Err e => Err e
                | Ok b => Ok (a ++ b)%list
                end
      end
  end.

(** [for rel_op in root.findall('.//RelOp'): process_node(rel_op)] *)
Definition build_graph (root : elem) : res (list dot_stmt) :=
  process_all (findall_relop root).

End Graph.

Definition add_nodes_from_xml (E : env) (xml_str : string) : res (list dot_stmt) :=
  match e_parse_xml E xml_str with
  | None => Err (XMLParseError "not well-formed (invalid token)")
  | Some root => build_graph (e_float E) root
  end.

(** ** [analyze_execution_plan] *)

Definition plan_query (query : string) : string :=
  "SET SHOWPLAN_XML ON; " ++ query ++ " SET SHOWPLAN_XML OFF;".

Definition metrics_query (plan_xml : string) : string :=
  "WITH XMLNAMESPACES (...) SELECT n.value('(@PhysicalOp)', 'varchar(100)') as Operation, ... FROM (SELECT CAST('"
  ++ plan_xml ++ "' AS XML)) as p(plan_xml) CROSS APPLY plan_xml.nodes('//RelOp') as q(n)".

(** [if database:] *)
Definition db_given (database : option string) : option string :=
  match database with
  | Some d => if String.eqb d "" then None else Some d
  | None => None
  end.

(** [result = ....fetchone(); plan_xml = result[0] if result else None],
    followed by the truth test [if not plan_xml]. The SHOWPLAN column is
    XML text, so only a string cell can carry a plan. *)
Definition plan_xml_of (t : table) : option string :=
  match t with
  | (VStr x :: _) :: _ => if String.eqb x "" then None else Some x
  | _ => None
  end.

Definition lift {A} (r : res A) : M A :=
  match r with
  | Ok a => ret a
  | Err e => raise e
  end.

Section Plan.

Variable E : env.

(** The body of the [try:] block. *)
Definition analyze_execution_plan_body (query : string) (database : option string)
  : M (table * string) :=
  connect E ;;;
  (match db_given database with
   | Some d => execute E (Use d) ;;; ret tt
   | None => ret tt
   end) ;;;
  result <- execute E (Sql (plan_query query)) ;;
  match plan_xml_of result with
  | None => ret ([], "")
  | Some plan_xml =>
      metrics_df <- execute E (Sql (metrics_query plan_xml)) ;;
      (match db_given database with
       | Some _ => execute E (Use "master") ;;; ret tt
       | None => ret tt
       end) ;;;
      _ <- lift (add_nodes_from_xml E plan_xml) ;;
      (if e_render E then ret tt
       else raise (RenderError "failed to execute dot")) ;;;
      ret (metrics_df, e_plan_path E ++ ".svg")
  end.

Definition analyze_execution_plan (query : string) (database : option string)
  : M (table * string) :=
  try_except (analyze_execution_plan_body query database)
    (fun e =>
       log_error ("Error analyzing execution plan: " ++ exn_msg e) ;;;
       ret ([], "")).

End Plan.

(** ** The diagnostic classifier ([_analyze_plan_metrics]) *)

(** One row of [metrics_df], the columns of the metrics query; SQL NULL
    (NaN in pandas) is [None]. [MissingStats] is never NULL because of its
    [COALESCE(..., 'None')]. *)
Record metrics_row : Type := mkRow {
  Operation : option string;
  EstimatedCost : option Q;
  EstimatedRows : option Q;
  EstimatedIO : option Q;
  EstimatedCPU : option Q;
  ParallelCost : option Q;
  MissingStats : string;
  LogicalOperation : option string
}.

(** Decimal rendering of a natural number. *)
Fixpoint digits_N (fuel : nat) (n : N) (acc : string) : string :=
  match fuel with
  | O => acc
  | S fuel' =>
      let acc' := String (Ascii.ascii_of_N (48 + N.modulo n 10)) acc in
      if N.ltb n 10 then acc' else digits_N fuel' (N.div n 10) acc'
  end.

Definition string_of_N (n : N) : string := digits_N (S (N.size_nat n)) n "".

(** [x * 100] rounded to an integer, ties to even, for [x >= 0]: the
    correctly rounded conversion [format] performs on the exact value of
    the float. *)
Definition round_hundredths (q : Q) : Z :=
  let n := (Qnum q * 100)%Z in
  let d := Zpos (Qden q) in
  let f := Z.div n d in
  let r := Z.modulo n d in
  match Z.compare (2 * r) d with
  | Lt => f
  | Gt => f + 1
  | Eq => if Z.even f then f else f + 1
  end.

Definition fmt2_nonneg (q : Q) : string :=
  let k := Z.to_N (round_hundredths q) in
  let cents := N.modulo k 100 in
  string_of_N (N.div k 100) ++ "."
  ++ (if N.ltb cents 10 then "0" else "") ++ string_of_N cents.

(** [f"{x:.2f}"] *)
Definition fmt2 (q : Q) : string :=
  if Qltb q 0%Q then "-" ++ fmt2_nonneg (- q) else fmt2_nonneg q.

(** [str(v)] of the [Operation] cell inside the f-string. *)
Definition py_str_opt (o : option string) : string :=
  match o with
  | Some s => s
  | None => "None"
  end.

(** [col > k], false on NaN. *)
Definition gt_opt (o : option Q) (k : Q) : bool :=
  match o with
  | Some x => Qltb k x
  | None => false
  end.

Definition expensive_msg (op : metrics_row) : string :=
  let c := match EstimatedCost op with Some c => c | None => 0%Q end in
  "Expensive operation found: " ++ py_str_opt (Operation op)
  ++ " (Cost: " ++ fmt2 c ++ ")".

Definition msg_unable : string := "Unable to analyze execution plan metrics".
Definition msg_missing_stats : string :=
  "Missing statistics detected - consider updating statistics".
Definition msg_parallel : string :=
  "Query uses parallel execution - consider reviewing parallelism threshold".
Definition msg_high_rows : string :=
  "Large number of rows being processed - consider adding indexes or optimizing joins".

Definition df_empty {A} (l : list A) : bool :=
  match l with [] => true | _ => false end.

Definition _analyze_plan_metrics (metrics_df : list metrics_row) : list string :=
  if df_empty metrics_df then [msg_unable]
  else
    let expensive_ops := filter (fun r => gt_opt (EstimatedCost r) 1%Q) metrics_df in
    let a1 := if df_empty expensive_ops then [] else map expensive_msg expensive_ops in
    let missing_stats := filter (fun r => negb (String.eqb (MissingStats r) "None")) metrics_df in
    let a2 := if df_empty missing_stats then [] else [msg_missing_stats] in
    let parallel_ops := filter (fun r => gt_opt (ParallelCost r) 0%Q) metrics_df in
    let a3 := if df_empty parallel_ops then [] else [msg_parallel] in
    let high_row_ops := filter (fun r => gt_opt (EstimatedRows r) (10000#1)) metrics_df in
    let a4 := if df_empty high_row_ops then [] else [msg_high_rows] in
    (a1 ++ a2 ++ a3 ++ a4)%list.

(** ** A concrete environment for the examples *)

(** [float(s)] on plain decimal literals ([digits] or [digits.digits]),
    which is how showplan prints costs and row estimates; anything else is
    refused. *)
Fixpoint parse_decimal_aux (s : string) (seen_point : bool) (num : Z) (den : positive)
  (any_digit : bool) : option Q :=
  match s with
  | EmptyString => if any_digit then Some (num # den) else None
  | String ch rest =>
      let n := Ascii.nat_of_ascii ch in
      if andb (Nat.leb 48 n) (Nat.leb n 57) then
        let d := Z.of_nat (n - 48) in
        parse_decimal_aux rest seen_point (num * 10 + d)%Z
          (if seen_point then (den * 10)%positive else den) true
      else if andb (Nat.eqb n 46) (negb seen_point) then
        parse_decimal_aux rest true num den any_digit
      else None
  end.

Definition parse_decimal (s : string) : option Q := parse_decimal_aux s false 0%Z 1%positive false.

(** Defaults for the examples below: the connection string names
    [master], the parser and renderer are not reached unless stated. *)
Definition mk_env (exec : string -> stmt -> outcome) (enum : res (list string))
  (parse : string -> option elem) : env :=
  mkEnv "master" true enum exec parse parse_decimal true
    "monitoring_results/execution_plans/execution_plan_20261018_120000".

(** The link to the server drops while [Sales] runs the diagnostic query;
    [HR] would answer normally. *)
Definition env_link_lost : env :=
  mk_env (fun cur x =>
            match x with
            | Use _ => OOk []
            | Sql _ => if String.eqb cur "Sales"
                       then ODrop "[08S01] Communication link failure"
                       else OOk [[VStr cur; VStr "Employees"; VStr "IX_Employees_Name"]]
            end)
         (Ok ["Sales"; "HR"]) (fun _ => None).

(** Every query succeeds; the link drops on the [USE [master]] issued from
    [Sales]. *)
Definition env_switch_back_lost : env :=
  mk_env (fun cur x =>
            match x with
            | Use d => if andb (String.eqb cur "Sales") (String.eqb d "master")
                       then ODrop "[08S01] Communication link failure"
                       else OOk []
            | Sql _ => OOk [[VStr cur; VStr "Orders"; VStr "IX_Orders_Date"]]
            end)
         (Ok ["Sales"; "HR"]) (fun _ => None).

(** The enumeration query fails (for instance, VIEW ANY DATABASE denied). *)
Definition env_enum_denied : env :=
  mk_env (fun _ _ => OOk [])
         (Err (DBAPIError "The SELECT permission was denied on the object 'databases'"))
         (fun _ => None).

(** The server refuses the SHOWPLAN batch. *)
Definition env_showplan_refused : env :=
  mk_env (fun _ x =>
            match x with
            | Use _ => OOk []
            | Sql t => if String.eqb t (plan_query "SELECT 1")
                       then OErr "SET SHOWPLAN_XML statement must be the only statement in the batch."
                       else OOk []
            end)
         (Ok []) (fun _ => None).

Definition truncated_plan : string := "<ShowPlanXML><RelOp".

(** The plan comes back truncated; the server's [CAST(... AS XML)] of the
    metrics query rejects it, as does [ET.fromstring]. *)
Definition env_truncated_plan : env :=
  mk_env (fun _ x =>
            match x with
            | Use _ => OOk []
            | Sql t => if String.eqb t (plan_query "SELECT 1")
                       then OOk [[VStr truncated_plan]]
                       else OErr "XML parsing: line 1, character 19, unexpected end of input"
            end)
         (Ok []) (fun _ => None).

(** A showplan fragment with three nested [RelOp]s, each below an
    operator element, as SQL Server nests them. *)
Definition nested_plan : elem :=
  Elem 0 "ShowPlanXML" []
    [Elem 1 "RelOp" [("PhysicalOp", "Nested Loops"); ("EstimateRows", "100");
                     ("EstimatedTotalSubtreeCost", "12.5")]
       [Elem 2 "NestedLoops" []
          [Elem 3 "RelOp" [("PhysicalOp", "Compute Scalar"); ("EstimateRows", "100");
                           ("EstimatedTotalSubtreeCost", "2.1")]
             [Elem 4 "ComputeScalar" []
                [Elem 5 "RelOp" [("PhysicalOp", "Index Scan"); ("EstimateRows", "100");
                                 ("EstimatedTotalSubtreeCost", "0.5")] []]]]]].

Definition dot_edges (l : list dot_stmt) : list (nat * nat) :=
  flat_map (fun d => match d with DEdge p c => [(p, c)] | DNode _ _ _ => [] end) l.

Definition dot_node_stmts (l : list dot_stmt) : list nat :=
  flat_map (fun d => match d with DNode i _ _ => [i] | DEdge _ _ => [] end) l.

(** ** The single-query readers ([pd.read_sql(query, self.engine)]) *)

(** [str.split(sep)]: every occurrence of [sep] cuts, empty pieces kept. *)
Fixpoint py_split_aux (sep : Ascii.ascii) (s cur : string) : list string :=
  match s with
  | EmptyString => [cur]
  | String ch rest =>
      if Ascii.eqb ch sep then cur :: py_split_aux sep rest ""
      else py_split_aux sep rest (cur ++ String ch "")
  end.

Definition py_split (sep : Ascii.ascii) (s : string) : list string :=
  py_split_aux sep s "".

(** The batch of [analyze_memory_usage], verbatim. *)
Definition memory_usage_query : string :=
"
        SELECT 
            CAST(ROUND(physical_memory_kb/1024.0/1024, 2) as decimal(10,2)) as TotalServerMemoryGB,
            CAST(ROUND(virtual_memory_kb/1024.0/1024, 2) as decimal(10,2)) as TotalServerVirtualMemoryGB,
            CAST(ROUND(committed_kb/1024.0/1024, 2) as decimal(10,2)) as SQLServerCommittedGB,
            CAST(ROUND(committed_target_kb/1024.0/1024, 2) as decimal(10,2)) as SQLServerTargetCommittedGB,
            process_physical_memory_low as LowPhysicalMemoryFlag,
            process_virtual_memory_low as LowVirtualMemoryFlag
        FROM sys.dm_os_process_memory;

        SELECT TOP 10
            DB_NAME(database_id) as DatabaseName,
            CAST(ROUND(COUNT(*) * 8/1024.0/1024, 2) as decimal(10,2)) as CacheUsageGB,
            COUNT(*) as BufferPageCount,
            AVG(read_microsec)/1000000.0 as AvgReadTimeSeconds
        FROM sys.dm_os_buffer_descriptors
        WHERE database_id > 4  -- Exclude system databases
        GROUP BY database_id
        ORDER BY BufferPageCount DESC;

        SELECT TOP 10
            OBJECT_NAME(p.object_id) as TableName,
            i.name as IndexName,
            CAST(ROUND(COUNT(*) * 8/1024.0/1024, 2) as decimal(10,2)) as CacheUsageGB,
            COUNT(*) as BufferPageCount
        FROM sys.dm_os_buffer_descriptors b
        INNER JOIN sys.allocation_units a ON a.allocation_unit_id = b.allocation_unit_id
        INNER JOIN sys.partitions p ON a.container_id = p.hobt_id
        INNER JOIN sys.indexes i ON p.index_id = i.index_id AND p.object_id = i.object_id
        WHERE b.database_id = DB_ID()
        AND p.object_id > 100  -- Exclude system objects
        GROUP BY p.object_id, i.name
        ORDER BY BufferPageCount DESC;
        ".

Definition expensive_queries_query : string :=
  "SELECT TOP 10 st.text as query_text, qs.execution_count, ... ORDER BY qs.total_worker_time DESC".

(** One row of the plan-cache query, typed as [pd.read_sql] types its
    columns; [st.text] may be NULL. *)
Record cached_query : Type := mkCached {
  cq_query_text : option string;
  cq_execution_count : Z;
  cq_total_cpu_seconds : Q;
  cq_total_duration_seconds : Q;
  cq_total_logical_reads : Z;
  cq_total_physical_reads : Z
}.

(** The dictionary appended per query by [analyze_expensive_queries_with_plans];
    [r_metrics] holds the frame behind [metrics_df.to_dict('records')]. *)
Record plan_report : Type := mkReport {
  r_query_text : option string;
  r_execution_count : Z;
  r_total_cpu_seconds : Q;
  r_total_duration_seconds : Q;
  r_total_logical_reads : Z;
  r_total_physical_reads : Z;
  r_metrics : table;
  r_plan_diagram : string;
  r_analysis : list string
}.

(** A row of the metrics frame read by column position (Operation,
    EstimatedCost, EstimatedRows, EstimatedIO, EstimatedCPU, ParallelCost,
    MissingStats, LogicalOperation). *)
Definition v_str (v : value) : option string :=
  match v with VStr s => Some s | _ => None end.
Definition v_num (v : value) : option Q :=
  match v with VNum q => Some q | _ => None end.

Definition metrics_row_of (r : row) : metrics_row :=
  mkRow (v_str (nth 0 r VNull)) (v_num (nth 1 r VNull)) (v_num (nth 2 r VNull))
        (v_num (nth 3 r VNull)) (v_num (nth 4 r VNull)) (v_num (nth 5 r VNull))
        (match nth 6 r VNull with VStr s => s | _ => "None" end)
        (v_str (nth 7 r VNull)).

Definition metrics_rows (t : table) : list metrics_row := map metrics_row_of t.

Section Engine.

Variable E : env.

(** [pd.read_sql(query, self.engine, params=...)]: each call checks out a
    connection of its own. *)
Variable read_sql : string -> list (string * value) -> res table.

(** [get_missing_indexes], [get_long_running_queries], [analyze_blocking],
    [get_deadlocks], [analyze_resource_intensive_queries],
    [analyze_io_performance] and [analyze_network_stats] share this shape:
    [try: return pd.read_sql(...) except Exception as e: log; return pd.DataFrame()]. *)
Definition read_or_empty (what query : string) (params : list (string * value)) : M table :=
  match read_sql query params with
  | Ok t => ret t
  | Err e => log_error ("Error " ++ what ++ ": " ++ exn_msg e) ;;; ret []
  end.

Definition analyze_memory_usage : M (table * table * table) :=
  let parts := py_split (Ascii.ascii_of_nat 59) (* ";" *) memory_usage_query in
  match read_sql (nth 0 parts "") [] with
  | Err e => log_error ("Error analyzing memory usage: " ++ exn_msg e) ;;; ret ([], [], [])
  | Ok system_memory =>
      match read_sql (nth 1 parts "") [] with
      | Err e => log_error ("Error analyzing memory usage: " ++ exn_msg e) ;;; ret ([], [], [])
      | Ok database_memory =>
          match read_sql (nth 2 parts "") [] with
          | Err e => log_error ("Error analyzing memory usage: " ++ exn_msg e) ;;; ret ([], [], [])
          | Ok table_memory => ret (system_memory, database_memory, table_memory)
          end
      end
  end.

(** The plan-cache query, as typed rows. *)
Variable read_expensive : res (list cached_query).

Fixpoint report_plans (rows : list cached_query) : M (list plan_report) :=
  match rows with
  | [] => ret []
  | r :: rest =>
      mp <- analyze_execution_plan E (py_str_opt (cq_query_text r)) None ;;
      let '(metrics_df, plan_path) := mp in
      reports <- report_plans rest ;;
      ret (mkReport (cq_query_text r) (cq_execution_count r) (cq_total_cpu_seconds r)
             (cq_total_duration_seconds r) (cq_total_logical_reads r)
             (cq_total_physical_reads r) metrics_df plan_path
             (_analyze_plan_metrics (metrics_rows metrics_df)) :: reports)
  end.

Definition analyze_expensive_queries_with_plans : M (list plan_report) :=
  try_except
    (match read_expensive with
     | Ok rows => report_plans rows
     | Err e => raise e
     end)
    (fun e => log_error ("Error analyzing expensive queries: " ++ exn_msg e) ;;; ret []).

End Engine.




(** A showplan as ElementTree parses it: SQL Server declares a default
    namespace, so every tag carries it; the operator's cost is not a
    number. *)
Definition showplan_ns : string := "{http://schemas.microsoft.com/sqlserver/2004/07/showplan}".

Definition namespaced_plan : elem :=
  Elem 0 (showplan_ns ++ "ShowPlanXML") []
    [Elem 1 (showplan_ns ++ "RelOp") [("PhysicalOp", "Table Scan"); ("EstimateRows", "100");
                                     ("EstimatedTotalSubtreeCost", "abc")] []].

(** A full plan analysis that succeeds: the plan comes back, the metrics
    query answers and the document is the three-operator fragment below. *)
Definition env_plan_ok : env :=
  mk_env (fun _ x =>
            match x with
            | Use _ => OOk []
            | Sql t => if String.eqb t (plan_query "SELECT 1")
                       then OOk [[VStr "<ShowPlanXML>...</ShowPlanXML>"]]
                       else OOk [[VStr "Nested Loops"; VNum (25#2)]]
            end)
         (Ok []) (fun _ => Some nested_plan).


(** The second batch of [analyze_memory_usage] is refused. *)
Definition read_memory_denied (q : string) (_ : list (string * value)) : res table :=
  if String.eqb q (nth 1 (py_split (Ascii.ascii_of_nat 59) memory_usage_query) "")
  then Err (DBAPIError "VIEW DATABASE STATE permission denied in database 'master'.")
  else Ok [[VNum (16#1)]].

(** One row of the plan-cache query. *)
Definition slow_query : cached_query :=
  mkCached (Some "SELECT 1") 12%Z (3#1) (4#1) 50000%Z 200%Z.

(** A connected monitor that has logged nothing yet. *)
Definition monitor_st : St := mkSt (mkConn "master" true) [] [].

(** ** Nested induction on plan documents, and the shape of the builder's
    output *)

(** Induction on [elem] with a hypothesis for every child. *)
Section ElemInd.
Variable P : elem -> Prop.
Hypothesis HP : forall i t a ks, Forall P ks -> P (Elem i t a ks).
Fixpoint elem_ind' (e : elem) : P e :=
  match e with
  | Elem i t a ks =>
      HP i t a ks ((fix go (l : list elem) : Forall P l :=
                      match l with
                      | [] => Forall_nil P
                      | k :: l' => Forall_cons k (elem_ind' k) (go l')
                      end) ks)
  end.
End ElemInd.

(** Node statements of [l] name [RelOp]s below [n]. *)
Definition node_ids_within (n : elem) (l : list dot_stmt) : Prop :=
  forall i lbl t, In (DNode i lbl t) l ->
    exists d, In d (findall_relop n) /\ elem_id d = i.

Definition edges_within (n : elem) (l : list dot_stmt) : Prop :=
  forall p c, In (DEdge p c) l ->
    exists x y, (x = n \/ In x (findall_relop n)) /\ In y (findall_relop x) /\
                elem_id x = p /\ elem_id y = c.

(** ** Helper lemmas *)

Lemma Qltb_iff (a b : Q) : Qltb a b = true <-> (a < b)%Q.
Proof.
  unfold Qltb. rewrite negb_true_iff. split.
  - intro H. apply Qnot_le_lt. intro H'. apply Qle_bool_iff in H'. congruence.
  - intro H. destruct (Qle_bool b a) eqn:E; [|reflexivity].
    apply Qle_bool_iff in E. exfalso. apply (Qlt_not_le a b H E).
Qed.

Lemma Qltb_false (a b : Q) : Qltb a b = false <-> (b <= a)%Q.
Proof.
  split.
  - intro H. apply Qnot_lt_le. intro H'. apply Qltb_iff in H'. congruence.
  - intro H. destruct (Qltb a b) eqn:E; [|reflexivity].
    apply Qltb_iff in E. exfalso. apply (Qlt_not_le a b E H).
Qed.

Lemma df_empty_filter {A} (f : A -> bool) (l : list A) :
  df_empty (filter f l) = negb (existsb f l).
Proof.
  induction l as [|x l IH]; simpl; [reflexivity|].
  destruct (f x); simpl; [reflexivity|exact IH].
Qed.

Lemma if_negb {A} (b : bool) (x y : A) :
  (if negb b then x else y) = (if b then y else x).
Proof. destruct b; reflexivity. Qed.

Lemma map_unless_empty {A B} (f : A -> B) (l : list A) :
  (if df_empty l then [] else map f l) = map f l.
Proof. destruct l; reflexivity. Qed.

(** ** Claims *)

(** C5: the colour tier of a plan node depends only on its estimated
    subtree cost: above 10 is high, above 1 and at most 10 is medium, at
    most 1 is normal; 10 is medium, 10.01 high, 1 normal, 1.01 medium. A
    node statement emitted by [process_node] carries the tier of
    [float(EstimatedTotalSubtreeCost)]. *)
Theorem cost_tier_thresholds :
  (forall c : Q,
     (cost_tier c = High <-> (10 < c)%Q) /\
     (cost_tier c = Medium <-> (1 < c)%Q /\ (c <= 10)%Q) /\
     (cost_tier c = Normal <-> (c <= 1)%Q)) /\
  cost_tier (10#1) = Medium /\ cost_tier (1001#100) = High /\
  cost_tier (1#1) = Normal /\ cost_tier (101#100) = Medium /\
  (forall py_float fuel node parent stmts,
     process_node py_float (S fuel) node parent = Ok stmts ->
     exists c rest,
       py_float (get_attr node "EstimatedTotalSubtreeCost" "0") = Some c /\
       stmts = DNode (elem_id node)
                 (get_attr node "PhysicalOp" "Unknown" ++ "\nRows: "
                  ++ get_attr node "EstimateRows" "0" ++ "\nCost: "
                  ++ get_attr node "EstimatedTotalSubtreeCost" "0")
                 (cost_tier c) :: rest).
Proof.
  split; [|repeat split; try reflexivity].
  - intro c. unfold cost_tier.
    destruct (Qltb (10#1) c) eqn:H10.
    + apply Qltb_iff in H10.
      split; [split; auto|]. split; split; intro H; try discriminate.
      * destruct H as [_ H]. exfalso. exact (Qlt_not_le _ _ H10 H).
      * exfalso. apply (Qlt_not_le _ _ H10). apply (Qle_trans _ (1#1)); [exact H|].
        unfold Qle; simpl; lia.
    + apply Qltb_false in H10.
      destruct (Qltb (1#1) c) eqn:H1.
      * apply Qltb_iff in H1.
        split; [split; intro H; [discriminate|exfalso; exact (Qlt_not_le _ _ H H10)]|].
        split; [split; auto|]. split; intro H; [discriminate|].
        exfalso. exact (Qlt_not_le _ _ H1 H).
      * apply Qltb_false in H1.
        split; [split; intro H; [discriminate|]|].
        { exfalso. apply (Qlt_not_le _ _ H). apply (Qle_trans _ (1#1)); [exact H1|].
          unfold Qle; simpl; lia. }
        split; [split; intro H; [discriminate|]|split; auto].
        destruct H as [H _]. exfalso. exact (Qlt_not_le _ _ H H1).
  - intros py_float fuel node parent stmts H. simpl in H.
    destruct (py_float (get_attr node "EstimatedTotalSubtreeCost" "0")) as [c|] eqn:Hc;
      [|discriminate].
    match type of H with
    | context [match ?x with Ok _ => _ | Err _ => _ end] =>
        destruct x as [rest|e] eqn:Hr; [|discriminate]
    end.
    exists c. eexists. split; [reflexivity|].
    injection H as <-. reflexivity.
Qed.

(** C7: on an empty metrics table the classifier returns exactly one
    finding, saying the plan could not be analyzed, and none of the four
    checks contributes a finding. *)
Theorem analyze_plan_metrics_empty :
  _analyze_plan_metrics [] = ["Unable to analyze execution plan metrics"] /\
  length (_analyze_plan_metrics []) = 1 /\
  (forall f, In f (_analyze_plan_metrics []) ->
     f <> msg_missing_stats /\ f <> msg_parallel /\ f <> msg_high_rows /\
     forall r, f <> expensive_msg r).
Proof.
  split; [reflexivity|]. split; [reflexivity|].
  intros f [<-|[]]. repeat split; try discriminate.
Qed.

(** The expensive-operation finding of one row, in the words of the spec. *)
Definition expensive_finding (operator : string) (cost : Q) : string :=
  "Expensive operation found: " ++ operator ++ " (Cost: " ++ fmt2 cost ++ ")".

(** C6: on a non-empty table the classifier emits, in row order, one
    [Expensive operation found: {operator} (Cost: {cost:.2f})] finding per
    row whose cost exceeds 1, then at most one finding each for missing
    statistics, for a positive non-null parallel cost and for more than
    10000 estimated rows, in that order; a single row with cost 15.0 and
    operator [Hash Match] yields
    [Expensive operation found: Hash Match (Cost: 15.00)]. *)
Theorem analyze_plan_metrics_nonempty :
  (forall rows, rows <> [] ->
     _analyze_plan_metrics rows =
       (flat_map (fun r => match EstimatedCost r with
                           | Some c => if Qltb 1 c
                                       then [expensive_finding (py_str_opt (Operation r)) c]
                                       else []
                           | None => []
                           end) rows
        ++ (if existsb (fun r => negb (String.eqb (MissingStats r) "None")) rows
            then [msg_missing_stats] else [])
        ++ (if existsb (fun r => match ParallelCost r with
                                 | Some p => Qltb 0 p
                                 | None => false
                                 end) rows
            then [msg_parallel] else [])
        ++ (if existsb (fun r => match EstimatedRows r with
                                 | Some n => Qltb (10000#1) n
                                 | None => false
                                 end) rows
            then [msg_high_rows] else []))%list) /\
  (forall rows_est par_cost stats io cpu logical,
     In "Expensive operation found: Hash Match (Cost: 15.00)"
       (_analyze_plan_metrics
          [mkRow (Some "Hash Match") (Some (15#1)) rows_est io cpu par_cost stats logical])).
Proof.
  split.
  - intros rows Hne. unfold _analyze_plan_metrics.
    destruct rows as [|r0 rs]; [contradiction|]. cbv zeta.
    change (df_empty (r0 :: rs)) with false. cbv iota.
    rewrite map_unless_empty, !df_empty_filter, !if_negb.
    unfold gt_opt. f_equal. clear Hne.
    induction (r0 :: rs) as [|r l IH]; [reflexivity|].
    simpl. rewrite <- IH.
    destruct (EstimatedCost r) as [c|] eqn:Hc; [|reflexivity].
    destruct (Qltb 1 c); [|reflexivity].
    simpl. unfold expensive_msg, expensive_finding. rewrite Hc. reflexivity.
  - intros. unfold _analyze_plan_metrics. simpl. left. reflexivity.
Qed.

(** [analyze_execution_plan] returns what its body returns, or, when the
    body raises, logs the error and returns the empty frame and path. *)
Lemma analyze_execution_plan_cases (E : env) (query : string) (database : option string) (s : St) :
  match analyze_execution_plan_body E query database s with
  | (Ok r, s') => analyze_execution_plan E query database s = (Ok r, s')
  | (Err e, s') => analyze_execution_plan E query database s =
                   (Ok ([], ""), mkSt (st_conn s') (st_log s' ++ [("Error analyzing execution plan: " ++ exn_msg e)%string])%list (st_acc s'))
  end.
Proof.
  unfold analyze_execution_plan, try_except.
  destruct (analyze_execution_plan_body E query database s) as [[r|e] s']; reflexivity.
Qed.

(** C10: [analyze_execution_plan] never raises: for every query and
    optional database it returns a (metrics frame, diagram path) pair, and
    whenever its body fails (plan retrieval, metrics query, database
    switch, XML parsing, [float], rendering) the pair is the empty frame
    with the empty path. *)
Theorem analyze_execution_plan_never_raises :
  forall (E : env) (query : string) (database : option string) (s : St),
    (exists r s', analyze_execution_plan E query database s = (Ok r, s')) /\
    (forall e s', analyze_execution_plan_body E query database s = (Err e, s') ->
       exists s'', analyze_execution_plan E query database s = (Ok ([], ""), s'')).
Proof.
  intros E query database s.
  pose proof (analyze_execution_plan_cases E query database s) as H.
  split.
  - destruct (analyze_execution_plan_body E query database s) as [[r|e] s'];
      eexists; eexists; exact H.
  - intros e s' Hb. rewrite Hb in H. eexists. exact H.
Qed.

(** On a plan document the XML parser rejects, the body either stops
    before any step reads the document (no plan), or raises a database
    error (a failed statement, the metrics query's [CAST(... AS XML)]
    among them) or the parser's error. *)
Lemma body_on_malformed_plan (E : env) (query : string) (database : option string)
  (doc : string) (s : St) :
  (forall cur, e_exec E cur (Sql (plan_query query)) = OOk [[VStr doc]]) ->
  e_parse_xml E doc = None ->
  match fst (analyze_execution_plan_body E query database s) with
  | Ok r => r = ([], "")
  | Err e => (exists m, e = DBAPIError m) \/ e = XMLParseError "not well-formed (invalid token)"
  end.
Proof.
  intros Hplan Hparse.
  unfold analyze_execution_plan_body, bind, connect, execute, ret, raise, lift,
    add_nodes_from_xml.
  destruct (e_connect E); [|left; eexists; reflexivity]. simpl.
  destruct (db_given database) as [d|]; simpl.
  - destruct (e_exec E (e_default_db E) (Use d)); simpl; try (left; eexists; reflexivity).
    rewrite Hplan. simpl.
    destruct (String.eqb doc ""); simpl; [reflexivity|].
    destruct (e_exec E d (Sql (metrics_query doc))); simpl; try (left; eexists; reflexivity).
    destruct (e_exec E d (Use "master")); simpl; try (left; eexists; reflexivity).
    rewrite Hparse. right. reflexivity.
  - rewrite Hplan. simpl.
    destruct (String.eqb doc ""); simpl; [reflexivity|].
    destruct (e_exec E (e_default_db E) (Sql (metrics_query doc))); simpl;
      try (left; eexists; reflexivity).
    rewrite Hparse. right. reflexivity.
Qed.

(** Once connected, switched and given a non-empty document, the first step
    that reads the document decides the error: the metrics query's
    database error when the server rejects the document, the parser's
    error when it accepts it. *)
Lemma body_malformed_first_reader (E : env) (query : string) (database : option string)
  (doc : string) (s : St) :
  (forall cur, e_exec E cur (Sql (plan_query query)) = OOk [[VStr doc]]) ->
  e_parse_xml E doc = None ->
  e_connect E = true -> doc <> "" ->
  (forall cur d, exists t, e_exec E cur (Use d) = OOk t) ->
  (forall m, (forall cur, e_exec E cur (Sql (metrics_query doc)) = OErr m) ->
     fst (analyze_execution_plan_body E query database s) = Err (DBAPIError m)) /\
  ((forall cur, exists t, e_exec E cur (Sql (metrics_query doc)) = OOk t) ->
     fst (analyze_execution_plan_body E query database s) =
       Err (XMLParseError "not well-formed (invalid token)")).
Proof.
  intros Hplan Hparse Hc Hne Huse.
  apply String.eqb_neq in Hne.
  unfold analyze_execution_plan_body, bind, connect, execute, ret, raise, lift,
    add_nodes_from_xml.
  rewrite Hc. simpl.
  destruct (db_given database) as [d|]; simpl.
  - destruct (Huse (e_default_db E) d) as [t0 Ht0]. rewrite Ht0. simpl.
    rewrite Hplan. simpl. rewrite Hne. simpl. split.
    + intros m Hm. rewrite Hm. reflexivity.
    + intro Hm. destruct (Hm d) as [t1 Ht1]. rewrite Ht1. simpl.
      destruct (Huse d "master") as [t2 Ht2]. rewrite Ht2. simpl.
      rewrite Hparse. reflexivity.
  - rewrite Hplan. simpl. rewrite Hne. simpl. split.
    + intros m Hm. rewrite Hm. reflexivity.
    + intro Hm. destruct (Hm (e_default_db E)) as [t1 Ht1]. rewrite Ht1. simpl.
      rewrite Hparse. reflexivity.
Qed.

(** C3 (as the code has it): on a plan document that is not well-formed
    there is no dedicated plan-parse error. When the body fails, it fails
    with a database error or with the XML parser's error, and with nothing
    else. The first step that reads the document decides which: the
    metrics query's [CAST(... AS XML)] when the server rejects the
    document (a database error), otherwise the parser. Either way the
    caller of [analyze_execution_plan] receives the empty metrics frame and
    the empty diagram path, and nothing is raised to it. *)
Theorem analyze_execution_plan_malformed :
  forall (E : env) (query : string) (database : option string) (doc : string) (s : St),
    (forall cur, e_exec E cur (Sql (plan_query query)) = OOk [[VStr doc]]) ->
    e_parse_xml E doc = None ->
    (exists s', analyze_execution_plan E query database s = (Ok ([], ""), s')) /\
    (forall e s', analyze_execution_plan_body E query database s = (Err e, s') ->
       (exists m, e = DBAPIError m) \/ e = XMLParseError "not well-formed (invalid token)") /\
    (e_connect E = true -> doc <> "" ->
     (forall cur d, exists t, e_exec E cur (Use d) = OOk t) ->
     (forall m, (forall cur, e_exec E cur (Sql (metrics_query doc)) = OErr m) ->
        fst (analyze_execution_plan_body E query database s) = Err (DBAPIError m)) /\
     ((forall cur, exists t, e_exec E cur (Sql (metrics_query doc)) = OOk t) ->
        fst (analyze_execution_plan_body E query database s) =
          Err (XMLParseError "not well-formed (invalid token)"))).
Proof.
  intros E query database doc s Hplan Hparse.
  pose proof (analyze_execution_plan_cases E query database s) as H.
  pose proof (body_on_malformed_plan E query database doc s Hplan Hparse) as Hb.
  split; [|split].
  - destruct (analyze_execution_plan_body E query database s) as [[r|e] s'];
      simpl in Hb; [subst r|]; eexists; exact H.
  - intros e s' He. rewrite He in Hb. exact Hb.
  - intros Hc Hne Huse.
    exact (body_malformed_first_reader E query database doc s Hplan Hparse Hc Hne Huse).
Qed.

Lemma scan_all_enum_fails (E : env) (what query : string) (e : exn) :
  e_connect E = true -> e_enum E = Err e ->
  run E (scan_all E what query) =
    (Ok [], mkSt (mkConn (e_default_db E) true)
              [("Error getting user databases: " ++ exn_msg e)%string] []).
Proof.
  intros Hc He. unfold run, scan_all, bind, connect, get_user_databases.
  rewrite Hc, He. reflexivity.
Qed.

(** C8 (as the code has it): when the enumeration of user databases fails,
    [get_user_databases] logs the error and yields no database, so each
    cross-database scan scans nothing and returns the empty frame without
    raising; the enumeration error only reaches the log. *)
Theorem scans_swallow_enumeration_failure :
  forall (E : env) (e : exn),
    e_connect E = true -> e_enum E = Err e ->
    let st := mkSt (mkConn (e_default_db E) true)
                [("Error getting user databases: " ++ exn_msg e)%string] [] in
    run E (get_duplicate_indexes E) = (Ok [], st) /\
    run E (get_unused_indexes E) = (Ok [], st) /\
    run E (analyze_indexes E) = (Ok [], st).
Proof.
  intros E e Hc He st.
  unfold get_duplicate_indexes, get_unused_indexes, analyze_indexes.
  rewrite !(scan_all_enum_fails E _ _ e Hc He). repeat split.
Qed.

(** C8, counterexample: with the enumeration denied, [get_duplicate_indexes]
    returns normally with an empty frame; the enumeration error is not
    surfaced to the caller. *)
Lemma enumeration_error_not_surfaced :
  fst (run env_enum_denied (get_duplicate_indexes env_enum_denied)) = Ok [].
Proof. vm_compute. reflexivity. Qed.

(** C1: a per-database failure is meant to stay inside that database's
    iteration. Here the link drops while [Sales] is scanned; the
    [USE [master]] of the [except] branch then raises, outside any [try],
    so the scan raises and [HR], whose query would succeed, is never
    scanned. *)
Theorem link_loss_aborts_scan :
  run env_link_lost (get_duplicate_indexes env_link_lost) =
    (Err (DBAPIError "connection is closed"),
     mkSt (mkConn "Sales" false)
       ["Error getting duplicate indexes for database Sales: [08S01] Communication link failure"]
       []) /\
  e_exec env_link_lost "HR" (Sql duplicate_indexes_query) =
    OOk [[VStr "HR"; VStr "Employees"; VStr "IX_Employees_Name"]].
Proof. split; vm_compute; reflexivity. Qed.

(** C9: the query on [Sales] succeeds and its rows are collected, but the
    switch back to [master] fails; the retry in the [except] branch raises
    again, so the failure of the switch-back escapes the scan: the caller
    gets an exception instead of the collected rows, and [HR] is never
    scanned. *)
Theorem switch_back_failure_aborts_scan :
  run env_switch_back_lost (get_duplicate_indexes env_switch_back_lost) =
    (Err (DBAPIError "connection is closed"),
     mkSt (mkConn "Sales" false)
       ["Error getting duplicate indexes for database Sales: [08S01] Communication link failure"]
       [[[VStr "Sales"; VStr "Orders"; VStr "IX_Orders_Date"]]]).
Proof. vm_compute. reflexivity. Qed.

(** C2: [analyze_execution_plan(query, database='Sales')] switches to
    [Sales]; when the SHOWPLAN batch is refused the [except] clause returns
    without the [USE [master]] of the success path, and the connection is
    handed back to the pool still on [Sales]. *)
Theorem execution_plan_failure_leaves_database :
  analyze_execution_plan env_showplan_refused "SELECT 1" (Some "Sales")
    (init_st env_showplan_refused) =
    (Ok ([], ""),
     mkSt (mkConn "Sales" true)
       ["Error analyzing execution plan: SET SHOWPLAN_XML statement must be the only statement in the batch."]
       []).
Proof. vm_compute. reflexivity. Qed.

(** C3, counterexample: on a truncated plan the first step that decodes it
    is the server-side [CAST(... AS XML)] of the metrics query, so the body
    fails with a database error, not with an XML parse error. *)
Lemma truncated_plan_fails_with_database_error :
  fst (analyze_execution_plan_body env_truncated_plan "SELECT 1" None
         (init_st env_truncated_plan)) =
    Err (DBAPIError "XML parsing: line 1, character 19, unexpected end of input").
Proof. vm_compute. reflexivity. Qed.

(** C4: the builder is meant to add one node per [RelOp] and one edge per
    parent-to-child link. On three nested operators 1 > 3 > 5 it records
    node statements for 1, 3, 5, 5, 3, 5, 5 and the edges 1-3, 3-5, 1-5,
    3-5: [findall('.//RelOp')] returns all descendants, so the grandchild
    gets an edge from its grandparent, nested operators are processed again
    from the top-level loop, and the edge 3-5 is added twice. *)
Theorem nested_relops_duplicate_edges :
  match build_graph parse_decimal nested_plan with
  | Ok stmts => dot_edges stmts = [(1, 3); (3, 5); (1, 5); (3, 5)] /\
                dot_node_stmts stmts = [1; 3; 5; 5; 3; 5; 5]
  | Err _ => False
  end.
Proof. vm_compute. split; reflexivity. Qed.

(** ** Witnesses *)

Lemma cost_tier_thresholds_witness :
  exists c rest,
    parse_decimal (get_attr (Elem 5 "RelOp" [("EstimatedTotalSubtreeCost", "0.5")] [])
                     "EstimatedTotalSubtreeCost" "0") = Some c /\
    DNode 5 "Unknown\nRows: 0\nCost: 0.5" Normal :: [] =
      DNode 5 "Unknown\nRows: 0\nCost: 0.5" (cost_tier c) :: rest.
Proof.
  destruct cost_tier_thresholds as (_ & _ & _ & _ & _ & F).
  apply (F parse_decimal 0 (Elem 5 "RelOp" [("EstimatedTotalSubtreeCost", "0.5")] [])
           None [DNode 5 "Unknown\nRows: 0\nCost: 0.5" Normal]).
  vm_compute. reflexivity.
Defined.

Lemma analyze_plan_metrics_nonempty_witness :
  let rows := [mkRow (Some "Hash Match") (Some (15#1)) (Some (20000#1)) None None
                 (Some (3#1)) "None" None;
               mkRow (Some "Index Seek") (Some (1#2)) (Some (1#1)) None None
                 None "Col1" None] in
  rows <> [] /\ _analyze_plan_metrics rows =
    ["Expensive operation found: Hash Match (Cost: 15.00)"; msg_missing_stats;
     msg_parallel; msg_high_rows].
Proof.
  intro rows. split; [discriminate|].
  rewrite (proj1 analyze_plan_metrics_nonempty rows); [|discriminate].
  vm_compute. reflexivity.
Defined.

Lemma scans_swallow_enumeration_failure_witness :
  e_connect env_enum_denied = true /\
  run env_enum_denied (analyze_indexes env_enum_denied) =
    (Ok [], mkSt (mkConn "master" true)
              ["Error getting user databases: The SELECT permission was denied on the object 'databases'"] []).
Proof.
  split; [reflexivity|].
  apply (scans_swallow_enumeration_failure env_enum_denied
           (DBAPIError "The SELECT permission was denied on the object 'databases'"));
    reflexivity.
Defined.

Lemma analyze_execution_plan_malformed_witness :
  e_parse_xml env_truncated_plan truncated_plan = None /\
  (exists s', analyze_execution_plan env_truncated_plan "SELECT 1" (Some "Sales")
                (init_st env_truncated_plan) = (Ok ([], ""), s')) /\
  fst (analyze_execution_plan_body env_truncated_plan "SELECT 1" (Some "Sales")
         (init_st env_truncated_plan)) =
    Err (DBAPIError "XML parsing: line 1, character 19, unexpected end of input").
Proof.
  destruct (analyze_execution_plan_malformed env_truncated_plan "SELECT 1" (Some "Sales")
              truncated_plan (init_st env_truncated_plan)) as (H1 & _ & H3).
  - intro cur. vm_compute. reflexivity.
  - reflexivity.
  - split; [reflexivity|]. split; [exact H1|].
    apply H3.
    + reflexivity.
    + discriminate.
    + intros cur d. exists []. reflexivity.
    + intro cur. vm_compute. reflexivity.
Defined.

Lemma analyze_execution_plan_never_raises_witness :
  exists s'', analyze_execution_plan env_showplan_refused "SELECT 1" None
                (init_st env_showplan_refused) = (Ok ([], ""), s'').
Proof.
  apply (proj2 (analyze_execution_plan_never_raises env_showplan_refused "SELECT 1" None
                  (init_st env_showplan_refused))
           (DBAPIError "SET SHOWPLAN_XML statement must be the only statement in the batch.")
           (mkSt (mkConn "master" true) [] [])).
  vm_compute. reflexivity.
Defined.

(** ** Further properties of the monitor *)

Lemma analyze_execution_plan_ok (E : env) (query : string) (database : option string) (s : St) :
  exists r s', analyze_execution_plan E query database s = (Ok r, s').
Proof.
  pose proof (analyze_execution_plan_cases E query database s) as H.
  destruct (analyze_execution_plan_body E query database s) as [[r|e] s'];
    eexists; eexists; exact H.
Qed.

Lemma report_plans_ok (E : env) (rows : list cached_query) (s : St) :
  exists reports s',
    report_plans E rows s = (Ok reports, s') /\
    map r_query_text reports = map cq_query_text rows /\
    Forall (fun r => r_analysis r = _analyze_plan_metrics (metrics_rows (r_metrics r)))
      reports.
Proof.
  revert s. induction rows as [|r rows IH]; intro s.
  - exists [], s. repeat split; constructor.
  - simpl. unfold bind at 1.
    destruct (analyze_execution_plan_ok E (py_str_opt (cq_query_text r)) None s)
      as [[m p] [s1 H1]].
    rewrite H1.
    destruct (IH s1) as [reports [s2 [H2 [Hq Hf]]]].
    unfold bind. rewrite H2.
    eexists. eexists. split; [reflexivity|].
    split; [simpl; f_equal; exact Hq|].
    constructor; [reflexivity|exact Hf].
Qed.

(** [analyze_expensive_queries_with_plans] never raises. When the plan-cache
    query fails it logs the error and returns no report. Otherwise it
    returns one report per cached query, in the order of the query's rows,
    each carrying the classifier's findings on its own metrics frame; a
    query whose plan could not be analyzed (empty frame) gets exactly the
    finding that the plan could not be analyzed. *)
Theorem expensive_queries_one_report_per_query :
  forall (E : env) (s : St),
    (forall e, analyze_expensive_queries_with_plans E (Err e) s =
       (Ok [], mkSt (st_conn s)
                 (st_log s ++ [("Error analyzing expensive queries: " ++ exn_msg e)%string])%list
                 (st_acc s))) /\
    (forall rows, exists reports s',
       analyze_expensive_queries_with_plans E (Ok rows) s = (Ok reports, s') /\
       map r_query_text reports = map cq_query_text rows /\
       Forall (fun r => r_analysis r = _analyze_plan_metrics (metrics_rows (r_metrics r)) /\
                        (r_metrics r = [] -> r_analysis r = [msg_unable])) reports).
Proof.
  intros E s. split.
  - intro e. reflexivity.
  - intro rows.
    destruct (report_plans_ok E rows s) as [reports [s' [H [Hq Hf]]]].
    exists reports, s'. unfold analyze_expensive_queries_with_plans, try_except.
    rewrite H. split; [reflexivity|]. split; [exact Hq|].
    eapply Forall_impl; [|exact Hf]. intros r Hr. split; [exact Hr|].
    intro Hm. rewrite Hr, Hm. reflexivity.
Qed.

(** [analyze_memory_usage] reads the three statements of its batch, cut at
    the [;]s (the piece after the last [;] is only whitespace), and is
    all-or-nothing: the three frames read when all three reads succeed,
    three empty frames and one logged error as soon as one fails, even if
    an earlier read succeeded. It never raises. *)
Theorem analyze_memory_usage_all_or_nothing :
  let parts := py_split (Ascii.ascii_of_nat 59) memory_usage_query in
  length parts = 4 /\ nth 3 parts "" = "
        " /\
  forall (read_sql : string -> list (string * value) -> res table) (s : St),
    (forall a b c,
       read_sql (nth 0 parts "") [] = Ok a -> read_sql (nth 1 parts "") [] = Ok b ->
       read_sql (nth 2 parts "") [] = Ok c ->
       analyze_memory_usage read_sql s = (Ok (a, b, c), s)) /\
    (forall i e, i < 3 -> read_sql (nth i parts "") [] = Err e ->
       exists e', analyze_memory_usage read_sql s =
         (Ok ([], [], []), mkSt (st_conn s)
            (st_log s ++ [("Error analyzing memory usage: " ++ exn_msg e')%string])%list
            (st_acc s))).
Proof.
  intro parts. split; [vm_compute; reflexivity|]. split; [vm_compute; reflexivity|].
  intros read_sql s. split.
  - intros a b c Ha Hb Hc. unfold analyze_memory_usage. fold parts.
    rewrite Ha, Hb, Hc. reflexivity.
  - intros i e Hi He. unfold analyze_memory_usage. fold parts.
    destruct (read_sql (nth 0 parts "") []) as [a|e0] eqn:Ha;
      [|exists e0; reflexivity].
    destruct (read_sql (nth 1 parts "") []) as [b|e1] eqn:Hb;
      [|exists e1; reflexivity].
    destruct (read_sql (nth 2 parts "") []) as [c|e2] eqn:Hc;
      [|exists e2; reflexivity].
    exfalso.
    destruct i as [|[|[|i]]]; [congruence|congruence|congruence|lia].
Qed.

Section ReliableSwitchBack.

Variable E : env.
Hypothesis no_drop : forall cur x m, e_exec E cur x <> ODrop m.
Hypothesis master_ok : forall cur, exists t, e_exec E cur (Use "master") = OOk t.



End ReliableSwitchBack.


(** ** The plan graph builder *)

Lemma descendants_cons i t a k ks :
  descendants (Elem i t a (k :: ks)) = k :: (descendants k ++ descendants (Elem i t a ks))%list.
Proof. reflexivity. Qed.

Lemma elem_size_cons i t a k ks :
  elem_size (Elem i t a (k :: ks)) = elem_size k + elem_size (Elem i t a ks).
Proof. simpl. lia. Qed.

Lemma In_descendants i t a ks d :
  In d (descendants (Elem i t a ks)) <->
  exists k, In k ks /\ (d = k \/ In d (descendants k)).
Proof.
  induction ks as [|k ks IH].
  - simpl. split; [intros []|intros (k & [] & _)].
  - rewrite descendants_cons. simpl. rewrite in_app_iff, IH. split.
    + intros [<-|[H|(k' & Hk' & Hd)]]; eauto.
    + intros (k' & [<-|Hk'] & [<-|Hd]); eauto 6.
Qed.

Lemma descendants_trans (n d x : elem) :
  In d (descendants n) -> In x (descendants d) -> In x (descendants n).
Proof.
  revert d x. induction n as [i t a ks IH] using elem_ind'.
  intros d x Hd Hx. apply In_descendants in Hd as (k & Hk & Hdk).
  apply In_descendants. exists k. split; [exact Hk|].
  right. destruct Hdk as [<-|Hdk]; [exact Hx|].
  rewrite Forall_forall in IH. exact (IH k Hk d x Hdk Hx).
Qed.

Lemma kid_size_lt i t a ks k :
  In k ks -> elem_size k < elem_size (Elem i t a ks).
Proof.
  induction ks as [|k' ks IH]; [intros []|].
  rewrite elem_size_cons. intros [<-|H]; [simpl; lia|].
  specialize (IH H). lia.
Qed.

Lemma descendants_size (n d : elem) :
  In d (descendants n) -> elem_size d < elem_size n.
Proof.
  revert d. induction n as [i t a ks IH] using elem_ind'.
  intros d Hd. apply In_descendants in Hd as (k & Hk & [<-|Hdk]).
  - apply kid_size_lt, Hk.
  - rewrite Forall_forall in IH. specialize (IH k Hk d Hdk).
    pose proof (kid_size_lt i t a ks k Hk). lia.
Qed.

Lemma findall_relop_trans (n d x : elem) :
  In d (findall_relop n) -> In x (findall_relop d) -> In x (findall_relop n).
Proof.
  unfold findall_relop. rewrite !filter_In. intros [Hd _] [Hx Ht].
  split; [exact (descendants_trans n d x Hd Hx)|exact Ht].
Qed.

Lemma process_node_shape (py_float : string -> option Q) (fuel : nat) :
  forall n par l,
  process_node py_float fuel n par = Ok l ->
  (forall i lbl t, In (DNode i lbl t) l ->
     i = elem_id n \/ exists d, In d (findall_relop n) /\ elem_id d = i) /\
  (forall p c, In (DEdge p c) l ->
     (par = Some p /\ c = elem_id n) \/
     exists x y, (x = n \/ In x (findall_relop n)) /\ In y (findall_relop x) /\
                 elem_id x = p /\ elem_id y = c).
Proof.
  induction fuel as [|fuel IH]; intros n par l H.
  - simpl in H. injection H as <-. split; intros; contradiction.
  - cbn [process_node] in H.
    destruct (py_float (get_attr n "EstimatedTotalSubtreeCost" "0")) as [c|]; [|discriminate].
    lazymatch type of H with
    | match ?x with Ok _ => _ | Err _ => _ end = _ => destruct x as [rest|e] eqn:Hc
    end; [|discriminate].
    injection H as <-.
    assert (Hrest : node_ids_within n rest /\ edges_within n rest).
    { remember (findall_relop n) as L eqn:HL in Hc.
      assert (Hincl : incl L (findall_relop n)) by (subst L; apply incl_refl).
      clear HL. revert rest Hc Hincl. induction L as [|ch L IHL]; intros rest Hc Hincl.
      - injection Hc as <-. unfold node_ids_within, edges_within. split; simpl; intros; contradiction.
      - simpl in Hc.
        destruct (process_node py_float fuel ch (Some (elem_id n))) as [a|e] eqn:Ha;
          [|discriminate].
        lazymatch type of Hc with
        | match ?x with Ok _ => _ | Err _ => _ end = _ => destruct x as [b|e] eqn:Hb
        end; [|discriminate].
        injection Hc as <-.
        assert (Hch : In ch (findall_relop n)) by (apply Hincl; left; reflexivity).
        destruct (IHL b eq_refl (fun x Hx => Hincl x (or_intror Hx))) as [IHn IHe].
        destruct (IH ch (Some (elem_id n)) a Ha) as [Hn He].
        unfold node_ids_within, edges_within in *. split.
        + intros i lbl t Hin. apply in_app_iff in Hin as [Hin|Hin]; [|exact (IHn _ _ _ Hin)].
          destruct (Hn i lbl t Hin) as [->|(d & Hd & <-)].
          * exists ch. split; [exact Hch|reflexivity].
          * exists d. split; [exact (findall_relop_trans n ch d Hch Hd)|reflexivity].
        + intros p q Hin. apply in_app_iff in Hin as [Hin|Hin]; [|exact (IHe _ _ Hin)].
          destruct (He p q Hin) as [[Hp ->]|(x & y & Hx & Hy & <- & <-)].
          * injection Hp as <-. exists n, ch. repeat split; auto.
          * exists x, y. repeat split; auto. right.
            destruct Hx as [->|Hx]; [exact Hch|exact (findall_relop_trans n ch x Hch Hx)]. }
    destruct Hrest as [Hn He]. unfold node_ids_within, edges_within in *. split.
    + intros i lbl t Hin. simpl in Hin. destruct Hin as [Hin|Hin].
      * injection Hin as <- _ _. left. reflexivity.
      * apply in_app_iff in Hin as [Hin|Hin].
        -- destruct par; simpl in Hin; [destruct Hin as [Hin|[]]|contradiction]; discriminate.
        -- right. exact (Hn i lbl t Hin).
    + intros p q Hin. simpl in Hin. destruct Hin as [Hin|Hin]; [discriminate|].
      apply in_app_iff in Hin as [Hin|Hin].
      * destruct par as [p'|]; simpl in Hin; [|contradiction].
        destruct Hin as [Hin|[]]. injection Hin as <- <-. left. split; reflexivity.
      * right. exact (He p q Hin).
Qed.

Lemma elem_size_pos (n : elem) : 0 < elem_size n.
Proof. destruct n; simpl; lia. Qed.

(** Fuel beyond the element's size changes nothing. *)
Lemma process_node_fuel (py_float : string -> option Q) (f1 : nat) :
  forall f2 n par, elem_size n <= f1 -> elem_size n <= f2 ->
  process_node py_float f1 n par = process_node py_float f2 n par.
Proof.
  induction f1 as [|f1 IH]; intros f2 n par H1 H2.
  - pose proof (elem_size_pos n). lia.
  - destruct f2 as [|f2]; [pose proof (elem_size_pos n); lia|].
    cbn [process_node].
    destruct (py_float (get_attr n "EstimatedTotalSubtreeCost" "0")) as [c|]; [|reflexivity].
    lazymatch goal with
    | |- match ?a (findall_relop n) with _ => _ end = match ?b (findall_relop n) with _ => _ end =>
        assert (Heq : forall L, incl L (findall_relop n) -> a L = b L)
    end.
    { induction L as [|ch L IHL]; intro Hincl; [reflexivity|].
      cbn.
      assert (Hch : In ch (findall_relop n)) by (apply Hincl; left; reflexivity).
      assert (Hs : elem_size ch < elem_size n).
      { apply descendants_size. unfold findall_relop in Hch.
        apply filter_In in Hch. exact (proj1 Hch). }
      rewrite (IH f2 ch (Some (elem_id n))) by lia.
      rewrite IHL by (intros x Hx; apply Hincl; right; exact Hx).
      reflexivity. }
    rewrite (Heq (findall_relop n) (incl_refl _)). reflexivity.
Qed.

Lemma process_node_head (py_float : string -> option Q) (fuel : nat) (n : elem)
  (par : option nat) (a : list dot_stmt) :
  process_node py_float (S fuel) n par = Ok a ->
  exists lbl t, In (DNode (elem_id n) lbl t) a.
Proof.
  intro H. cbn [process_node] in H.
  destruct (py_float (get_attr n "EstimatedTotalSubtreeCost" "0")) as [c|]; [|discriminate].
  lazymatch type of H with
  | match ?x with Ok _ => _ | Err _ => _ end = _ => destruct x as [rest|e]
  end; [|discriminate].
  injection H as <-. do 2 eexists. left. reflexivity.
Qed.

Lemma process_all_shape (py_float : string -> option Q) (root : elem) :
  forall L stmts, process_all py_float L = Ok stmts -> incl L (findall_relop root) ->
    (forall r, In r L -> exists lbl t, In (DNode (elem_id r) lbl t) stmts) /\
    (forall i lbl t, In (DNode i lbl t) stmts ->
       exists r, In r (findall_relop root) /\ elem_id r = i) /\
    (forall p c, In (DEdge p c) stmts ->
       exists x y, In x (findall_relop root) /\ In y (findall_relop x) /\
                   elem_id x = p /\ elem_id y = c).
Proof.
  induction L as [|r L IHL]; intros stmts H Hincl.
  - injection H as <-. repeat split; intros; contradiction.
  - simpl in H. unfold process_root in H.
    destruct (process_node py_float (elem_size r) r None) as [a|e] eqn:Ha; [|discriminate].
    destruct (process_all py_float L) as [b|e] eqn:Hb; [|discriminate].
    injection H as <-.
    assert (Hr : In r (findall_relop root)) by (apply Hincl; left; reflexivity).
    destruct (IHL b eq_refl (fun x Hx => Hincl x (or_intror Hx))) as (IH1 & IH2 & IH3).
    destruct (process_node_shape py_float _ r None a Ha) as [Hn He].
    repeat split.
    + intros r' [<-|Hr'].
      * destruct (elem_size r) as [|f] eqn:Hs; [pose proof (elem_size_pos r); lia|].
        destruct (process_node_head py_float f r None a Ha) as (lbl & t & Hin).
        exists lbl, t. apply in_app_iff. left. exact Hin.
      * destruct (IH1 r' Hr') as (lbl & t & Hin).
        exists lbl, t. apply in_app_iff. right. exact Hin.
    + intros i lbl t Hin. apply in_app_iff in Hin as [Hin|Hin]; [|exact (IH2 _ _ _ Hin)].
      destruct (Hn i lbl t Hin) as [->|(d & Hd & <-)].
      * exists r. split; [exact Hr|reflexivity].
      * exists d. split; [exact (findall_relop_trans root r d Hr Hd)|reflexivity].
    + intros p c Hin. apply in_app_iff in Hin as [Hin|Hin]; [|exact (IH3 _ _ Hin)].
      destruct (He p c Hin) as [[Hp _]|(x & y & Hx & Hy & <- & <-)]; [discriminate|].
      exists x, y. repeat split; [|exact Hy].
      destruct Hx as [->|Hx]; [exact Hr|exact (findall_relop_trans root r x Hr Hx)].
Qed.

(** Here a [RelOp] is an element whose ElementTree tag is exactly
    ["RelOp"], with no namespace: the only elements [findall('.//RelOp')]
    matches. When the graph builder succeeds, every such element below the
    root gets a node statement, every node statement names one, and every
    edge goes from one to another nested below it: the builder never links
    unrelated operators (siblings, or an operator to one above it). *)
Theorem build_graph_shape :
  forall (py_float : string -> option Q) (root : elem) (stmts : list dot_stmt),
    build_graph py_float root = Ok stmts ->
    (forall r, In r (findall_relop root) ->
       exists lbl t, In (DNode (elem_id r) lbl t) stmts) /\
    (forall i lbl t, In (DNode i lbl t) stmts ->
       exists r, In r (findall_relop root) /\ elem_id r = i) /\
    (forall p c, In (DEdge p c) stmts ->
       exists x y, In x (findall_relop root) /\ In y (findall_relop x) /\
                   elem_id x = p /\ elem_id y = c).
Proof.
  intros py_float root stmts H.
  exact (process_all_shape py_float root (findall_relop root) stmts H (incl_refl _)).
Qed.



(** When no element below the root has the bare tag ["RelOp"], as on every
    showplan whose elements carry the showplan namespace,
    [findall('.//RelOp')] finds nothing: the builder succeeds with no
    statement at all, whatever the operators' costs, and the diagram is
    empty. *)
Theorem build_graph_no_bare_relop_empty :
  forall (py_float : string -> option Q) (root : elem),
    (forall d, In d (descendants root) -> elem_tag d <> "RelOp") ->
    build_graph py_float root = Ok [].
Proof.
  intros py_float root Hd. unfold build_graph, findall_relop.
  assert (G : forall l, (forall d, In d l -> elem_tag d <> "RelOp") ->
              filter (fun d => String.eqb (elem_tag d) "RelOp") l = []).
  { induction l as [|d l IH]; intro H; [reflexivity|].
    simpl. destruct (String.eqb (elem_tag d) "RelOp") eqn:Ed.
    - apply String.eqb_eq in Ed. exfalso. exact (H d (or_introl eq_refl) Ed).
    - apply IH. intros x Hx. apply H. right. exact Hx. }
  rewrite (G _ Hd). reflexivity.
Qed.

(** ** [analyze_execution_plan] on success *)



(** ** Witnesses of the further properties *)



Lemma analyze_memory_usage_all_or_nothing_witness :
  exists e', analyze_memory_usage read_memory_denied monitor_st =
    (Ok ([], [], []),
     mkSt (mkConn "master" true) [("Error analyzing memory usage: " ++ exn_msg e')%string] []).
Proof.
  destruct analyze_memory_usage_all_or_nothing as (_ & _ & T).
  apply (proj2 (T read_memory_denied monitor_st) 1
           (DBAPIError "VIEW DATABASE STATE permission denied in database 'master'.")).
  - lia.
  - vm_compute. reflexivity.
Defined.

Lemma expensive_queries_one_report_per_query_witness :
  exists reports s',
    analyze_expensive_queries_with_plans env_plan_ok (Ok [slow_query]) monitor_st =
      (Ok reports, s') /\
    map r_query_text reports = [Some "SELECT 1"].
Proof.
  destruct (proj2 (expensive_queries_one_report_per_query env_plan_ok monitor_st) [slow_query])
    as (reports & s' & H & Hq & _).
  exists reports, s'. split; [exact H|exact Hq].
Defined.

Lemma build_graph_shape_witness :
  exists stmts, build_graph parse_decimal nested_plan = Ok stmts /\
    forall p c, In (DEdge p c) stmts ->
      exists x y, In x (findall_relop nested_plan) /\ In y (findall_relop x) /\
                  elem_id x = p /\ elem_id y = c.
Proof.
  eexists.
  match goal with |- ?A = ?B /\ _ => assert (H : A = B) by (vm_compute; reflexivity) end.
  split; [exact H|].
  exact (proj2 (proj2 (build_graph_shape parse_decimal nested_plan _ H))).
Defined.


Lemma build_graph_no_bare_relop_empty_witness :
  parse_decimal "abc" = None /\ build_graph parse_decimal namespaced_plan = Ok [].
Proof.
  split; [reflexivity|].
  apply build_graph_no_bare_relop_empty.
  intros d Hd. simpl in Hd. destruct Hd as [<-|[]]. discriminate.
Defined.
